(** * PyOpenWorm.channelworm: entity construction and attribute mapping

    A shallow embedding of [PyOpenWorm/channelworm.py]: the constructors of
    [PatchClampExperiment], [ChannelModel], [PatchClampChannelModel] and
    [HomologyChannelModel], over a small model of Python values, keyword
    dictionaries, exceptions and the attribute accessors the constructors
    call.

    Conventions.
    - A Python [str] is a [string] of bytes; [str.lower] is the ASCII one.
    - A keyword dictionary ([**kwargs]) is an association list in insertion
      order, as a Python dict iterates; a well-formed one has no repeated
      key ([NoDup kwargs.*1]).
    - An instance is the table of the properties attached to it, a
      [gmap string Property]; a property object that the source mutates in
      place is written back into the table under its name.
    - A raised exception is the [Raise] case of [result]; a constructor
      returns the instance it initialised ([self]). *)

From Stdlib Require Import String Ascii.
From stdpp Require Import base option list gmap strings fin_maps.

Local Open Scope string_scope.

(** ** Classes

    The class statements of the module, with the bases they name.
    [Experiment], [DataObject] and [Channel] are imported; their own bases
    are not visible from here. *)

Inductive pyclass :=
| DataObject
| Experiment
| Channel
| PatchClampExperiment
| ChannelModel
| PatchClampChannelModel
| HomologyChannelModel.

#[global] Instance pyclass_eq_dec : EqDecision pyclass.
Proof. solve_decision. Defined.

Definition class_name (c : pyclass) : string :=
  match c with
  | DataObject => "DataObject"
  | Experiment => "Experiment"
  | Channel => "Channel"
  | PatchClampExperiment => "PatchClampExperiment"
  | ChannelModel => "ChannelModel"
  | PatchClampChannelModel => "PatchClampChannelModel"
  | HomologyChannelModel => "HomologyChannelModel"
  end.

(** The base named in each [class C(B):] statement. *)
Definition class_base (c : pyclass) : option pyclass :=
  match c with
  | PatchClampExperiment => Some Experiment
  | ChannelModel => Some DataObject
  | PatchClampChannelModel => Some ChannelModel
  | HomologyChannelModel => Some ChannelModel
  | DataObject | Experiment | Channel => None
  end.

(** The class and its ancestors, most derived first. *)
Fixpoint ancestors (fuel : nat) (c : pyclass) : list pyclass :=
  c :: match fuel, class_base c with
       | S fuel', Some b => ancestors fuel' b
       | _, _ => []
       end.

(** ** Python values, exceptions *)

Inductive pyval :=
| PyNone
| PyBool (b : bool)
| PyInt (n : Z)
| PyStr (s : string)
| PyObj (cls : pyclass) (ident : string).

#[global] Instance pyval_eq_dec : EqDecision pyval.
Proof. solve_decision. Defined.

Inductive exn :=
| SchemaConflict
| TypeMismatch
| UnrecognizedArgument
| AttributeError
| TypeError.

#[global] Instance exn_eq_dec : EqDecision exn.
Proof. solve_decision. Defined.

Inductive result (A : Type) :=
| Ok (a : A)
| Raise (e : exn).

Arguments Ok {A} a.
Arguments Raise {A} e.

#[global] Instance result_ret : MRet result := @Ok.

#[global] Instance result_bind : MBind result :=
  λ A B f r, match r with Ok a => f a | Raise e => Raise e end.

(** [for x in l: body], where the body may raise. *)
Fixpoint for_each {A S : Type} (body : A → S → result S) (l : list A) (s : S)
  : result S :=
  match l with
  | [] => Ok s
  | x :: l' => s' ← body x s; for_each body l' s'
  end.

(** ** Strings *)

Definition ascii_lower (c : ascii) : ascii :=
  let n := nat_of_ascii c in
  if (65 <=? n)%nat && (n <=? 90)%nat then ascii_of_nat (n + 32) else c.

(** [str.lower()] *)
Fixpoint lower (s : string) : string :=
  match s with
  | EmptyString => EmptyString
  | String c s' => String (ascii_lower c) (lower s')
  end.

(** ** Keyword dictionaries *)

Abbreviation dict := (list (string * pyval)).

(** [d[k]] *)
Definition dict_get (d : dict) (k : string) : option pyval :=
  (list_to_map d : gmap string pyval) !! k.

(** Modelled from the spec: [yarom.utils.slice_dict], which is imported and
    not part of this module; the entries of [d] whose key is in [s] ("the
    subset present in the fixed list"). *)
Definition slice_dict (d : dict) (s : list string) : dict :=
  filter (λ kv, kv.1 ∈ s) d.

(** [{k: d[k] for k in d if k not in excluded}] *)
Definition dict_without (d excluded : dict) : dict :=
  omap (λ k, if bool_decide (k ∈ excluded.*1) then None
             else pair k <$> dict_get d k) d.*1.

(** ** Properties

    The property machinery lives in [PyOpenWorm.dataObject], which this
    module imports. *)

Inductive kind :=
| Datatype
| Relationship (target : pyclass).

#[global] Instance kind_eq_dec : EqDecision kind.
Proof. solve_decision. Defined.

Record Property := mkProperty {
  multiple : bool;
  pkind : kind;
  values : list pyval;
}.

#[global] Instance Property_eq_dec : EqDecision Property.
Proof. solve_decision. Defined.

(** An instance: the properties attached to it, by attribute name. *)
Abbreviation Obj := (gmap string Property).

(** Modelled from the spec: the declaration [declare(name, owner,
    cardinality, kind)] of section 4.1, defined in [PyOpenWorm.dataObject].
    The source passes the instance as the owner; a name the owner already
    has is a [SchemaConflict], a new one gets a property holding no value. *)
Definition declare (name : string) (owner : Obj) (mult : bool) (k : kind)
  : result Obj :=
  match owner !! name with
  | Some _ => Raise SchemaConflict
  | None => Ok (<[name := mkProperty mult k []]> owner)
  end.

(** [cls.DatatypeProperty(linkName, owner, multiple=False)] *)
Definition DatatypeProperty (linkName : string) (owner : Obj) (mult : bool)
  : result Obj :=
  declare linkName owner mult Datatype.

(** Modelled from the spec: [cls.ObjectProperty(value_type=T)], a
    relationship declaration of section 4.1 with target [T]; the source
    gives it neither a name nor an owner and binds the result to an
    attribute of the instance by assignment. *)
Definition ObjectProperty (value_type : pyclass) : Property :=
  mkProperty false (Relationship value_type) [].

(** [isinstance(v, cls)] for a referenced entity; the longest chain of
    class statements here has three classes. *)
Definition isinstance (v : pyval) (cls : pyclass) : bool :=
  match v with
  | PyObj c _ => bool_decide (cls ∈ ancestors 2 c)
  | _ => false
  end.

(** Modelled from the spec: the accessor of section 4.1 called with a value,
    "sets/adds it": a single-valued property is overwritten, a multi-valued
    one accumulates in order; a relationship validates the value against
    its target type. *)
Definition prop_set (v : pyval) (p : Property) : result Property :=
  let stored :=
    mkProperty (multiple p) (pkind p)
               (if multiple p then values p ++ [v] else [v]) in
  match pkind p with
  | Datatype => Ok stored
  | Relationship t => if isinstance v t then Ok stored else Raise TypeMismatch
  end.

Inductive got :=
| One (v : option pyval)
| Many (vs : list pyval).

(** Modelled from the spec: the accessor of section 4.1 called with no
    argument: "a single value for cardinality=single, a sequence for
    cardinality=multiple". *)
Definition prop_get (p : Property) : got :=
  if multiple p then Many (values p) else One (last (values p)).

(** [getattr(self, name)] *)
Definition getattr (self : Obj) (name : string) : result Property :=
  match self !! name with
  | Some p => Ok p
  | None => Raise AttributeError
  end.

(** [getattr(self, name).set(v)], also written [self.name(v)]: the property
    object attached to [self] is updated in place. *)
Definition attr_set (name : string) (v : pyval) (self : Obj) : result Obj :=
  p ← getattr self name;
  p' ← prop_set v p;
  Ok (<[name := p']> self).

(** [self.name()] *)
Definition attr_get (name : string) (self : Obj) : result got :=
  p ← getattr self name; Ok (prop_get p).

(** [self.name = p] *)
Definition setattr (name : string) (p : Property) (self : Obj) : Obj :=
  <[name := p]> self.

(** ** PatchClampExperiment *)

(** [PatchClampExperiment.conditions] *)
Definition conditions : list string :=
  [ "Ca_concentration";
    "Cl_concentration";
    "blockers";
    "cell";
    "cell_age";
    "delta_t";
    "duration";
    "end_time";
    "extra_solution";
    "initial_voltage";
    "ion_channel";
    "membrane_capacitance";
    "mutants";
    "patch_type";
    "pipette_solution";
    "protocol_end";
    "protocol_start";
    "protocol_step";
    "start_time";
    "temperature";
    "type" ].

(** [PatchClampExperiment.__init__(self, reference=False, **kwargs)].
    [Experiment_init] is the base constructor
    [Experiment.__init__(self, reference, **kwargs)], imported from
    [PyOpenWorm.experiment]. *)
Definition PatchClampExperiment_init
    (Experiment_init : bool → dict → result Obj)
    (reference : bool) (kwargs : dict) : result Obj :=
  let conds := slice_dict kwargs conditions in
  let kwargs := dict_without kwargs conds in
  self ← Experiment_init reference kwargs;
  self ← for_each (λ c self, DatatypeProperty c self false) conditions self;
  for_each (λ '(c, v) self, attr_set c v self) conds self.

(** ** ChannelModel *)

(** [ChannelModelType.patchClamp] *)
Definition patchClamp : string := "Patch clamp experiment".

(** [ChannelModelType.homologyEstimate] *)
Definition homologyEstimate : string := "Estimation based on homology".

(** [ChannelModel.__init__(self, modelType=False, *args, **kwargs)].
    [DataObject_init] is the base constructor
    [DataObject.__init__(self, *args, **kwargs)], imported from
    [PyOpenWorm.dataObject]. *)
Definition ChannelModel_init
    (DataObject_init : list pyval → dict → result Obj)
    (modelType : pyval) (args : list pyval) (kwargs : dict) : result Obj :=
  self ← DataObject_init args kwargs;
  self ← DatatypeProperty "modelType" self false;
  self ← DatatypeProperty "ion" self true;
  self ← DatatypeProperty "gating" self true;
  self ← DatatypeProperty "conductance" self false;
  match modelType with
  | PyStr modelType =>
      let modelType := lower modelType in
      if bool_decide (modelType ∈ ["homology"; homologyEstimate]) then
        attr_set "modelType" (PyStr homologyEstimate) self
      else if bool_decide (modelType ∈ ["patch-clamp"; patchClamp]) then
        attr_set "modelType" (PyStr patchClamp) self
      else Ok self
  | _ => Ok self
  end.

(** A call [f(modelType=v, **kwargs)]: Python refuses a keyword given
    twice with a [TypeError] before the callee runs. *)
Definition call_with_modelType {A : Type}
    (f : pyval → list pyval → dict → result A) (v : pyval) (kwargs : dict)
  : result A :=
  if bool_decide ("modelType" ∈ kwargs.*1) then Raise TypeError
  else f v [] kwargs.

(** [PatchClampChannelModel.__init__(self, **kwargs)] *)
Definition PatchClampChannelModel_init
    (DataObject_init : list pyval → dict → result Obj)
    (kwargs : dict) : result Obj :=
  self ← call_with_modelType (ChannelModel_init DataObject_init)
           (PyStr "patch-clamp") kwargs;
  Ok (setattr "modeled_from" (ObjectProperty PatchClampExperiment) self).

(** [HomologyChannelModel.__init__(self, **kwargs)] *)
Definition HomologyChannelModel_init
    (DataObject_init : list pyval → dict → result Obj)
    (kwargs : dict) : result Obj :=
  self ← call_with_modelType (ChannelModel_init DataObject_init)
           (PyStr "homology") kwargs;
  Ok (setattr "homolog" (ObjectProperty Channel) self).

(** The values a constructed instance holds for an attribute. *)
Definition stored (name : string) (self : Obj) : list pyval :=
  match self !! name with
  | Some p => values p
  | None => []
  end.

(** ** Base constructors for concrete runs

    Modelled from the spec: a base-entity constructor with the contract of
    section 6, "raises on unrecognized remaining_kwargs"; this one takes no
    keyword of its own and attaches no property. *)
Definition plain_Experiment_init (reference : bool) (kwargs : dict)
  : result Obj :=
  match kwargs with
  | [] => Ok ∅
  | _ :: _ => Raise UnrecognizedArgument
  end.

(** Modelled from the spec: the same contract for [DataObject.__init__]. *)
Definition plain_DataObject_init (args : list pyval) (kwargs : dict)
  : result Obj :=
  match args, kwargs with
  | [], [] => Ok ∅
  | _, _ => Raise UnrecognizedArgument
  end.

(** Modelled from the spec: an ancestor constructor that has already
    declared [name] (section 4.1: a name "in the inherited schema"). *)
Definition declaring_Experiment_init (name : string) (reference : bool)
    (kwargs : dict) : result Obj :=
  self ← plain_Experiment_init reference kwargs;
  DatatypeProperty name self false.

(** ** Class definition

    What runs when the module is imported: each class statement executes
    its body once.  The bodies of this module hold a docstring, class
    attributes bound by assignment and the definition of [__init__], whose
    own body runs only when an instance is constructed. *)

Inductive class_stmt :=
| Docstring
| ClassAttr (name : string)
| Method (name : string)
| Declaration (name : string) (mult : bool) (k : kind).

(** The statements of each class body, in source order.  The imported
    classes are defined elsewhere; nothing of them runs here. *)
Definition class_body (c : pyclass) : list class_stmt :=
  match c with
  | PatchClampExperiment =>
      [Docstring; ClassAttr "class_context"; ClassAttr "conditions";
       Method "__init__"]
  | ChannelModel => [Docstring; ClassAttr "class_context"; Method "__init__"]
  | PatchClampChannelModel => [Method "__init__"]
  | HomologyChannelModel => [Method "__init__"]
  | DataObject | Experiment | Channel => []
  end.

(** The entity classes the module defines, in source order. *)
Definition module_classes : list pyclass :=
  [PatchClampExperiment; ChannelModel; PatchClampChannelModel;
   HomologyChannelModel].

(** Modelled from the spec: the schema registry of section 4.1, a
    "process-wide table keyed by class" of the declarations each class
    owns. *)
Abbreviation Registry := (gmap string Obj).

Definition own_schema (reg : Registry) (c : pyclass) : Obj :=
  default ∅ (reg !! class_name c).

(** Modelled from the spec: [resolve_schema] of section 4.3, which "walks
    the class's ancestor chain", "accumulating declarations". *)
Definition resolve_schema (reg : Registry) (c : pyclass) : Obj :=
  foldr (λ a acc, acc ∪ own_schema reg a) ∅ (ancestors 2 c).

(** Modelled from the spec: a declaration met while a class body runs
    (sections 4.1 and 4.3): a name of the inherited schema is a
    [SchemaConflict], a new one enters the class's own schema.  The other
    statements bind names in the class namespace and leave the registry
    alone. *)
Definition exec_class_stmt (c : pyclass) (st : class_stmt) (reg : Registry)
  : result Registry :=
  match st with
  | Declaration name mult k =>
      _ ← declare name (resolve_schema reg c) mult k;
      Ok (<[class_name c := <[name := mkProperty mult k []]> (own_schema reg c)]>
            reg)
  | Docstring | ClassAttr _ | Method _ => Ok reg
  end.

(** [class C(B): body] *)
Definition define_class (c : pyclass) (reg : Registry) : result Registry :=
  for_each (exec_class_stmt c) (class_body c) reg.

(** Importing the module: its class statements, top to bottom. *)
Definition import_module (reg : Registry) : result Registry :=
  for_each define_class module_classes reg.

(** Modelled from the spec: base constructors that attach the instance to
    "its schema's declared accessors" (section 4.4, step 3) and raise "on
    unrecognized remaining_kwargs" (section 6). *)
Definition schema_Experiment_init (reg : Registry) (reference : bool)
    (kwargs : dict) : result Obj :=
  match kwargs with
  | [] => Ok (resolve_schema reg Experiment)
  | _ :: _ => Raise UnrecognizedArgument
  end.

Definition schema_DataObject_init (reg : Registry) (args : list pyval)
    (kwargs : dict) : result Obj :=
  match args, kwargs with
  | [], [] => Ok (resolve_schema reg DataObject)
  | _, _ => Raise UnrecognizedArgument
  end.

(** A registry in which the imported [Experiment] has declared [type] and
    the imported [DataObject] has declared [ion]. *)
Definition ex_registry : Registry :=
  {[ "Experiment" := {[ "type" := mkProperty false Datatype [] ]};
     "DataObject" := {[ "ion" := mkProperty true Datatype [] ]} ]}.

(** * Properties *)

(** ** The result monad and loops *)

Lemma bind_Ok {A B : Type} (f : A → result B) (r : result A) (b : B) :
  r ≫= f = Ok b ↔ ∃ a, r = Ok a ∧ f a = Ok b.
Proof.
  destruct r as [a|e]; simpl; split.
  - intros H. by exists a.
  - by intros (a' & [= ->] & H).
  - done.
  - by intros (a' & ? & _).
Qed.

Lemma bind_ret {A B : Type} (f : A → result B) (a : A) : Ok a ≫= f = f a.
Proof. reflexivity. Qed.

Lemma bind_Raise {A B : Type} (f : A → result B) (r : result A) (e : exn) :
  r = Raise e → r ≫= f = Raise e.
Proof. by intros ->. Qed.

(** ** Lower-casing never yields a capital letter *)

Lemma ascii_lower_not_capital (c : ascii) :
  let n := nat_of_ascii (ascii_lower c) in ¬ (65 ≤ n ≤ 90)%nat.
Proof.
  destruct c as [[] [] [] [] [] [] [] []]; vm_compute; lia.
Qed.

Lemma lower_head_not_capital (s : string) (c : ascii) (t : string) :
  lower s = String c t → ¬ (65 ≤ nat_of_ascii c ≤ 90)%nat.
Proof.
  destruct s as [|c' s']; simpl; [done|].
  intros [= <- _]. apply ascii_lower_not_capital.
Qed.

Lemma lower_ne_homologyEstimate (s : string) : lower s ≠ homologyEstimate.
Proof.
  intros H. apply lower_head_not_capital in H. vm_compute in H. lia.
Qed.

Lemma lower_ne_patchClamp (s : string) : lower s ≠ patchClamp.
Proof.
  intros H. apply lower_head_not_capital in H. vm_compute in H. lia.
Qed.

(** ** Keyword dictionaries *)

Lemma dict_get_Some (d : dict) (k : string) (v : pyval) :
  NoDup d.*1 → dict_get d k = Some v ↔ (k, v) ∈ d.
Proof. intros Hd. unfold dict_get. by rewrite <-elem_of_list_to_map. Qed.

Lemma dict_get_None (d : dict) (k : string) :
  dict_get d k = None ↔ k ∉ d.*1.
Proof. unfold dict_get. by rewrite <-not_elem_of_list_to_map. Qed.

Lemma dict_get_perm (d1 d2 : dict) (k : string) :
  NoDup d1.*1 → d1 ≡ₚ d2 → dict_get d1 k = dict_get d2 k.
Proof.
  intros Hd Hp. unfold dict_get. by rewrite (list_to_map_proper d1 d2).
Qed.

Lemma slice_dict_elem (d : dict) (s : list string) (k : string) (v : pyval) :
  (k, v) ∈ slice_dict d s ↔ k ∈ s ∧ (k, v) ∈ d.
Proof. unfold slice_dict. by rewrite list_elem_of_filter. Qed.

Lemma slice_dict_keys (d : dict) (s : list string) (k : string) :
  k ∈ (slice_dict d s).*1 ↔ k ∈ s ∧ k ∈ d.*1.
Proof.
  rewrite !list_elem_of_fmap. split.
  - intros ([k' v] & -> & H). apply slice_dict_elem in H as [? ?].
    split; [done|]. by exists (k', v).
  - intros (Hs & [k' v] & -> & H). exists (k', v).
    split; [done|]. by apply slice_dict_elem.
Qed.

Lemma slice_dict_NoDup (d : dict) (s : list string) :
  NoDup d.*1 → NoDup (slice_dict d s).*1.
Proof.
  unfold slice_dict. induction d as [|[k v] d IH]; simpl; [done|].
  rewrite NoDup_cons. intros [Hk Hd]. rewrite filter_cons. simpl.
  case_decide; [|by apply IH]. csimpl. apply NoDup_cons. split; [|by apply IH].
  intros Hin. apply Hk. by apply (slice_dict_keys d s k).
Qed.

Lemma slice_dict_perm (d1 d2 : dict) (s : list string) :
  d1 ≡ₚ d2 → slice_dict d1 s ≡ₚ slice_dict d2 s.
Proof. intros Hp. unfold slice_dict. by rewrite Hp. Qed.

Lemma dict_get_slice (d : dict) (s : list string) (k : string) :
  NoDup d.*1 →
  dict_get (slice_dict d s) k = if decide (k ∈ s) then dict_get d k else None.
Proof.
  intros Hd. apply option_eq. intros v.
  rewrite dict_get_Some by by apply slice_dict_NoDup.
  rewrite slice_dict_elem. case_decide.
  - rewrite dict_get_Some by done. tauto.
  - split; [tauto|done].
Qed.

Lemma omap_keys_filter (d0 d : dict) (ex s : list string) :
  (∀ k v, (k, v) ∈ d → dict_get d0 k = Some v) →
  (∀ k, k ∈ d.*1 → k ∈ ex ↔ k ∈ s) →
  omap (λ k, if bool_decide (k ∈ ex) then None else pair k <$> dict_get d0 k)
       d.*1
  = filter (λ kv, kv.1 ∉ s) d.
Proof.
  induction d as [|[k v] d IH]; intros Hget Hex; [done|].
  csimpl. rewrite filter_cons. simpl.
  rewrite (Hget k v) by apply list_elem_of_here.
  assert (Hk : k ∈ ex ↔ k ∈ s) by (apply Hex; csimpl; apply list_elem_of_here).
  rewrite IH.
  - case_bool_decide; case_decide; simpl; tauto || done.
  - intros k' v' H. apply Hget. by apply list_elem_of_further.
  - intros k' H. apply Hex. csimpl. by apply list_elem_of_further.
Qed.

(** The keywords passed on are the entries whose name is no condition. *)
Lemma dict_without_slice (d : dict) (s : list string) :
  NoDup d.*1 →
  dict_without d (slice_dict d s) = filter (λ kv, kv.1 ∉ s) d.
Proof.
  intros Hd. unfold dict_without. apply omap_keys_filter.
  - intros k v H. by apply dict_get_Some.
  - intros k H. rewrite slice_dict_keys. tauto.
Qed.

(** ** The declaration loop and the population loop *)

Abbreviation declare_each :=
  (for_each (λ (c : string) (self : Obj), DatatypeProperty c self false)).

Abbreviation populate_each :=
  (for_each (λ '((c, v) : string * pyval) (self : Obj), attr_set c v self)).

Lemma declare_fresh (name : string) (o : Obj) (mult : bool) :
  o !! name = None →
  DatatypeProperty name o mult
  = Ok (<[name := mkProperty mult Datatype []]> o).
Proof. intros H. unfold DatatypeProperty, declare. by rewrite H. Qed.

Lemma declare_taken (name : string) (o : Obj) (mult : bool) :
  is_Some (o !! name) → DatatypeProperty name o mult = Raise SchemaConflict.
Proof. intros [p H]. unfold DatatypeProperty, declare. by rewrite H. Qed.

Lemma declare_Ok (name : string) (o o' : Obj) (mult : bool) :
  DatatypeProperty name o mult = Ok o' →
  o !! name = None ∧ o' = <[name := mkProperty mult Datatype []]> o.
Proof.
  unfold DatatypeProperty, declare. destruct (o !! name); [done|].
  by intros [= <-].
Qed.

Lemma declare_each_ok (names : list string) (o : Obj) :
  NoDup names → (∀ c, c ∈ names → o !! c = None) →
  ∃ o', declare_each names o = Ok o' ∧
    ∀ n, o' !! n = if decide (n ∈ names)
                   then Some (mkProperty false Datatype []) else o !! n.
Proof.
  revert o. induction names as [|c names IH]; intros o Hnd Hfresh.
  - exists o. split; [done|]. intros n. case_decide; [|done].
    by apply elem_of_nil in H.
  - apply NoDup_cons in Hnd as [Hc Hnd]. simpl.
    rewrite declare_fresh by (apply Hfresh, list_elem_of_here). simpl.
    destruct (IH (<[c := mkProperty false Datatype []]> o) Hnd)
      as (o' & Hrun & Hlook).
    + intros c' Hc'. rewrite lookup_insert_ne by (intros ->; done).
      by apply Hfresh, list_elem_of_further.
    + exists o'. split; [done|]. intros n. rewrite Hlook.
      destruct (decide (n = c)) as [->|Hne].
      * rewrite decide_False by done. rewrite lookup_insert_eq.
        rewrite decide_True by apply list_elem_of_here. done.
      * rewrite lookup_insert_ne by done.
        destruct (decide (n ∈ names)).
        -- rewrite decide_True by by apply list_elem_of_further. done.
        -- rewrite decide_False; [done|].
           rewrite elem_of_cons. tauto.
Qed.

Lemma declare_each_inv (names : list string) (o o' : Obj) :
  declare_each names o = Ok o' →
  NoDup names ∧ ∀ c, c ∈ names → o !! c = None.
Proof.
  revert o. induction names as [|c names IH]; intros o; simpl.
  - intros _. split; [constructor|]. intros c Hc. by apply elem_of_nil in Hc.
  - intros H. apply bind_Ok in H as (o1 & Hd & Hrest).
    apply declare_Ok in Hd as [Hnone ->].
    apply IH in Hrest as [Hnd Hfresh]. split.
    + apply NoDup_cons. split; [|done]. intros Hin.
      apply Hfresh in Hin. by rewrite lookup_insert_eq in Hin.
    + intros c' [->|Hin]%elem_of_cons; [done|].
      specialize (Hfresh c' Hin).
      destruct (decide (c' = c)) as [->|Hne]; [done|].
      by rewrite lookup_insert_ne in Hfresh.
Qed.

Lemma declare_each_conflict (names : list string) (o : Obj) (c : string) :
  c ∈ names → is_Some (o !! c) → declare_each names o = Raise SchemaConflict.
Proof.
  revert o. induction names as [|c' names IH]; intros o Hin Hsome.
  - by apply elem_of_nil in Hin.
  - simpl. destruct (o !! c') as [p|] eqn:Hc'.
    + by rewrite declare_taken.
    + rewrite declare_fresh by done. simpl.
      apply elem_of_cons in Hin as [->|Hin].
      * rewrite Hc' in Hsome. by destruct Hsome.
      * apply IH; [done|]. destruct (decide (c = c')) as [->|Hne].
        -- rewrite Hc' in Hsome. by destruct Hsome.
        -- by rewrite lookup_insert_ne.
Qed.

Lemma attr_set_datatype (c : string) (v : pyval) (o : Obj) (vs : list pyval) :
  o !! c = Some (mkProperty false Datatype vs) →
  attr_set c v o = Ok (<[c := mkProperty false Datatype [v]]> o).
Proof. intros H. unfold attr_set, getattr. by rewrite H. Qed.

Lemma dict_get_cons (c : string) (v : pyval) (d : dict) (n : string) :
  dict_get ((c, v) :: d) n = if decide (n = c) then Some v else dict_get d n.
Proof.
  unfold dict_get. simpl. rewrite lookup_insert.
  case_decide; case_decide; congruence.
Qed.

Lemma populate_each_ok (conds : dict) (o : Obj) :
  NoDup conds.*1 →
  (∀ c, c ∈ conds.*1 → ∃ vs, o !! c = Some (mkProperty false Datatype vs)) →
  ∃ o', populate_each conds o = Ok o' ∧
    ∀ n, o' !! n = match dict_get conds n with
                   | Some v => Some (mkProperty false Datatype [v])
                   | None => o !! n
                   end.
Proof.
  revert o. induction conds as [|[c v] conds IH]; intros o Hnd Hdecl.
  - exists o. split; [done|]. intros n. unfold dict_get. simpl.
    by rewrite lookup_empty.
  - csimpl in Hnd. apply NoDup_cons in Hnd as [Hc Hnd].
    destruct (Hdecl c) as [vs Hvs]; [csimpl; apply list_elem_of_here|].
    simpl. rewrite (attr_set_datatype c v o vs Hvs). simpl.
    destruct (IH (<[c := mkProperty false Datatype [v]]> o) Hnd)
      as (o' & Hrun & Hlook).
    + intros c' Hc'. rewrite lookup_insert_ne by (intros ->; done).
      apply Hdecl. csimpl. by apply list_elem_of_further.
    + exists o'. split; [done|]. intros n. rewrite Hlook, dict_get_cons.
      destruct (decide (n = c)) as [->|Hne].
      * apply dict_get_None in Hc. rewrite Hc. by rewrite lookup_insert_eq.
      * by rewrite lookup_insert_ne.
Qed.

(** ** PatchClampExperiment *)

Lemma conditions_NoDup : NoDup conditions.
Proof. apply (bool_decide_unpack _). vm_compute. exact I. Qed.

Lemma conditions_length : length conditions = 21%nat.
Proof. reflexivity. Qed.

(** What a condition attribute holds after construction from [kwargs]. *)
Definition condition_values (kwargs : dict) (c : string) : list pyval :=
  match dict_get kwargs c with
  | Some v => [v]
  | None => []
  end.

(** The keywords that are no condition, as the base constructor gets them. *)
Definition forwarded (kwargs : dict) : dict :=
  filter (λ kv, kv.1 ∉ conditions) kwargs.

Section PatchClampExperiment.

Variable Experiment_init : bool → dict → result Obj.

Lemma PatchClampExperiment_init_Raise reference kwargs e :
  NoDup kwargs.*1 →
  Experiment_init reference (forwarded kwargs) = Raise e →
  PatchClampExperiment_init Experiment_init reference kwargs = Raise e.
Proof.
  intros Hnd Hbase. unfold PatchClampExperiment_init.
  rewrite dict_without_slice by done. fold (forwarded kwargs).
  by rewrite Hbase.
Qed.

Lemma PatchClampExperiment_init_Ok reference kwargs base :
  NoDup kwargs.*1 →
  Experiment_init reference (forwarded kwargs) = Ok base →
  (∀ c, c ∈ conditions → base !! c = None) →
  ∃ self,
    PatchClampExperiment_init Experiment_init reference kwargs = Ok self ∧
    ∀ n, self !! n =
         if decide (n ∈ conditions)
         then Some (mkProperty false Datatype (condition_values kwargs n))
         else base !! n.
Proof.
  intros Hnd Hbase Hfresh. unfold PatchClampExperiment_init.
  rewrite dict_without_slice by done. fold (forwarded kwargs).
  rewrite Hbase, bind_ret.
  destruct (declare_each_ok conditions base conditions_NoDup Hfresh)
    as (o1 & Hdecl & Hlook1).
  rewrite Hdecl, bind_ret.
  destruct (populate_each_ok (slice_dict kwargs conditions) o1)
    as (o2 & Hpop & Hlook2).
  { by apply slice_dict_NoDup. }
  { intros c [Hc _]%slice_dict_keys. exists []. rewrite Hlook1.
    by rewrite decide_True. }
  exists o2. split; [done|]. intros n.
  rewrite Hlook2, Hlook1, dict_get_slice by done.
  unfold condition_values. case_decide; [|done].
  by destruct (dict_get kwargs n).
Qed.

Lemma PatchClampExperiment_init_inv reference kwargs self :
  NoDup kwargs.*1 →
  PatchClampExperiment_init Experiment_init reference kwargs = Ok self →
  ∃ base,
    Experiment_init reference (forwarded kwargs) = Ok base ∧
    (∀ c, c ∈ conditions → base !! c = None) ∧
    ∀ n, self !! n =
         if decide (n ∈ conditions)
         then Some (mkProperty false Datatype (condition_values kwargs n))
         else base !! n.
Proof.
  intros Hnd Hrun. pose proof Hrun as Hrun'.
  unfold PatchClampExperiment_init in Hrun'.
  rewrite dict_without_slice in Hrun' by done. fold (forwarded kwargs) in Hrun'.
  apply bind_Ok in Hrun' as (base & Hbase & Hrest).
  apply bind_Ok in Hrest as (o1 & Hdecl & _).
  apply declare_each_inv in Hdecl as [_ Hfresh].
  exists base. split; [done|]. split; [done|].
  destruct (PatchClampExperiment_init_Ok reference kwargs base Hnd Hbase Hfresh)
    as (self' & Hrun2 & Hlook).
  rewrite Hrun in Hrun2. by injection Hrun2 as ->.
Qed.

Lemma PatchClampExperiment_init_declare_Raise reference kwargs base e :
  NoDup kwargs.*1 →
  Experiment_init reference (forwarded kwargs) = Ok base →
  declare_each conditions base = Raise e →
  PatchClampExperiment_init Experiment_init reference kwargs = Raise e.
Proof.
  intros Hnd Hbase Hdecl. unfold PatchClampExperiment_init.
  rewrite dict_without_slice by done. fold (forwarded kwargs).
  by rewrite Hbase, bind_ret, Hdecl.
Qed.

End PatchClampExperiment.

(** ** ChannelModel *)

(** The names [ChannelModel.__init__] declares, in order. *)
Definition ChannelModel_names : list string :=
  ["modelType"; "ion"; "gating"; "conductance"].

(** The instance after the four declarations. *)
Definition ChannelModel_declared (base : Obj) : Obj :=
  <["conductance" := mkProperty false Datatype []]>
    (<["gating" := mkProperty true Datatype []]>
       (<["ion" := mkProperty true Datatype []]>
          (<["modelType" := mkProperty false Datatype []]> base))).

(** The instance once [modelType] holds [v]. *)
Definition with_modelType (v : string) (self : Obj) : Obj :=
  <["modelType" := mkProperty false Datatype [PyStr v]]> self.

Lemma lower_in_homology (s : string) :
  lower s ∈ ["homology"; homologyEstimate] ↔ lower s = "homology".
Proof.
  rewrite !elem_of_cons, elem_of_nil.
  pose proof (lower_ne_homologyEstimate s). tauto.
Qed.

Lemma lower_in_patch_clamp (s : string) :
  lower s ∈ ["patch-clamp"; patchClamp] ↔ lower s = "patch-clamp".
Proof.
  rewrite !elem_of_cons, elem_of_nil.
  pose proof (lower_ne_patchClamp s). tauto.
Qed.

Lemma ChannelModel_declared_modelType (base : Obj) :
  ChannelModel_declared base !! "modelType"
  = Some (mkProperty false Datatype []).
Proof.
  unfold ChannelModel_declared.
  rewrite !lookup_insert_ne by done. apply lookup_insert_eq.
Qed.

Section ChannelModel.

Variable DataObject_init : list pyval → dict → result Obj.

Lemma ChannelModel_init_Raise modelType args kwargs e :
  DataObject_init args kwargs = Raise e →
  ChannelModel_init DataObject_init modelType args kwargs = Raise e.
Proof. intros H. unfold ChannelModel_init. by rewrite H. Qed.

Lemma ChannelModel_init_conflict modelType args kwargs base c :
  DataObject_init args kwargs = Ok base →
  c ∈ ChannelModel_names → is_Some (base !! c) →
  ChannelModel_init DataObject_init modelType args kwargs
  = Raise SchemaConflict.
Proof.
  intros Hbase Hc Hsome. unfold ChannelModel_init.
  rewrite Hbase, bind_ret.
  destruct (base !! "modelType") as [p|] eqn:H1;
    [by rewrite declare_taken|rewrite declare_fresh, bind_ret by done].
  destruct (base !! "ion") as [p|] eqn:H2;
    [by rewrite declare_taken by by rewrite lookup_insert_ne, H2|].
  rewrite declare_fresh, bind_ret by by rewrite lookup_insert_ne.
  destruct (base !! "gating") as [p|] eqn:H3;
    [by rewrite declare_taken by by rewrite !lookup_insert_ne, H3|].
  rewrite declare_fresh, bind_ret by by rewrite !lookup_insert_ne.
  destruct (base !! "conductance") as [p|] eqn:H4;
    [by rewrite declare_taken by by rewrite !lookup_insert_ne, H4|].
  exfalso. destruct Hsome as [p Hp]. unfold ChannelModel_names in Hc.
  repeat (apply elem_of_cons in Hc as [->|Hc]; [congruence|]).
  by apply elem_of_nil in Hc.
Qed.

Lemma ChannelModel_init_declares modelType args kwargs base :
  DataObject_init args kwargs = Ok base →
  (∀ c, c ∈ ChannelModel_names → base !! c = None) →
  ChannelModel_init DataObject_init modelType args kwargs
  = let self := ChannelModel_declared base in
    match modelType with
    | PyStr s =>
        if decide (lower s = "homology") then
          Ok (with_modelType homologyEstimate self)
        else if decide (lower s = "patch-clamp") then
          Ok (with_modelType patchClamp self)
        else Ok self
    | _ => Ok self
    end.
Proof.
  intros Hbase Hfresh. unfold ChannelModel_init.
  rewrite Hbase, bind_ret.
  rewrite declare_fresh, bind_ret
    by (apply Hfresh; unfold ChannelModel_names; set_solver).
  rewrite declare_fresh, bind_ret
    by (rewrite lookup_insert_ne by done;
        apply Hfresh; unfold ChannelModel_names; set_solver).
  rewrite declare_fresh, bind_ret
    by (rewrite !lookup_insert_ne by done;
        apply Hfresh; unfold ChannelModel_names; set_solver).
  rewrite declare_fresh, bind_ret
    by (rewrite !lookup_insert_ne by done;
        apply Hfresh; unfold ChannelModel_names; set_solver).
  fold (ChannelModel_declared base). cbv zeta.
  destruct modelType as [| | |s|]; try done.
  case_bool_decide as Hh.
  - apply lower_in_homology in Hh. rewrite decide_True by done.
    apply (attr_set_datatype _ _ _ []), ChannelModel_declared_modelType.
  - rewrite lower_in_homology in Hh. rewrite decide_False by done.
    case_bool_decide as Hp.
    + apply lower_in_patch_clamp in Hp. rewrite decide_True by done.
      apply (attr_set_datatype _ _ _ []), ChannelModel_declared_modelType.
    + rewrite lower_in_patch_clamp in Hp. by rewrite decide_False.
Qed.

End ChannelModel.

(** * The claims *)

(** An instance built for the concrete runs below. *)
Definition ex_kwargs : dict :=
  [("temperature", PyInt 20); ("cell", PyStr "ADAL")].

Definition ex_experiment : Obj :=
  match PatchClampExperiment_init plain_Experiment_init false ex_kwargs with
  | Ok self => self
  | Raise _ => ∅
  end.

Lemma ex_experiment_built :
  PatchClampExperiment_init plain_Experiment_init false ex_kwargs
  = Ok ex_experiment.
Proof. vm_compute. reflexivity. Qed.

Ltac nodup_keys := apply (bool_decide_unpack _); vm_compute; exact I.
Ltac in_list := apply (bool_decide_unpack _); vm_compute; exact I.

(** C1: the constructor of [PatchClampExperiment] splits its keyword
    arguments by membership in the fixed condition list.  Every entry goes
    to exactly one side and nothing else appears on either; the entries
    whose name is no condition reach the base [Experiment] constructor as
    they were; an exception of the base constructor (such as
    [UnrecognizedArgument]) is the constructor's own outcome; and when the
    base succeeds, every keyword named in the list is the value of the
    attribute of that name on the new instance. *)
Theorem PatchClampExperiment_partitions_kwargs
    (Experiment_init : bool → dict → result Obj)
    (reference : bool) (kwargs : dict) :
  NoDup kwargs.*1 →
  let conds := slice_dict kwargs conditions in
  let other := dict_without kwargs conds in
  (∀ k v, (k, v) ∈ kwargs →
     if decide (k ∈ conditions)
     then (k, v) ∈ conds ∧ k ∉ other.*1
     else (k, v) ∈ other ∧ k ∉ conds.*1) ∧
  (∀ k v, (k, v) ∈ conds ∨ (k, v) ∈ other → (k, v) ∈ kwargs) ∧
  (∀ e, Experiment_init reference other = Raise e →
     PatchClampExperiment_init Experiment_init reference kwargs = Raise e) ∧
  (∀ base, Experiment_init reference other = Ok base →
     (∀ c, c ∈ conditions → base !! c = None) →
     ∃ self,
       PatchClampExperiment_init Experiment_init reference kwargs = Ok self ∧
       ∀ k v, (k, v) ∈ kwargs → k ∈ conditions →
         self !! k = Some (mkProperty false Datatype [v]) ∧
         attr_get k self = Ok (One (Some v))).
Proof.
  intros Hnd conds other. subst conds other.
  rewrite dict_without_slice by done. fold (forwarded kwargs).
  assert (Hfwd : ∀ k v, ((k, v) ∈ forwarded kwargs)
                        ↔ ((k ∉ conditions) ∧ (k, v) ∈ kwargs)).
  { intros k v. unfold forwarded. by rewrite list_elem_of_filter. }
  assert (Hfwdk : ∀ k, k ∈ (forwarded kwargs).*1 → k ∉ conditions).
  { intros k ([k' v] & -> & H)%list_elem_of_fmap. by apply Hfwd in H as [? _]. }
  repeat split.
  - intros k v Hin. case_decide as Hk.
    + split; [by apply slice_dict_elem|]. intros H. by apply Hfwdk in H.
    + split; [by apply Hfwd|]. intros [? _]%slice_dict_keys. done.
  - intros k v [[_ H]%slice_dict_elem|[_ H]%Hfwd]; done.
  - intros e He. by apply PatchClampExperiment_init_Raise.
  - intros base Hbase Hfresh.
    destruct (PatchClampExperiment_init_Ok Experiment_init reference kwargs
                base Hnd Hbase Hfresh) as (self & Hrun & Hlook).
    exists self. split; [done|]. intros k v Hin Hk.
    assert (Hself : self !! k = Some (mkProperty false Datatype [v])).
    { rewrite Hlook, decide_True by done. unfold condition_values.
      apply (dict_get_Some kwargs k v Hnd) in Hin. by rewrite Hin. }
    split; [done|]. unfold attr_get, getattr. by rewrite Hself.
Qed.

Lemma PatchClampExperiment_partitions_kwargs_witness :
  PatchClampExperiment_init plain_Experiment_init false
    [("temperature", PyInt 20); ("cell", PyStr "ADAL"); ("foo", PyInt 1)]
  = Raise UnrecognizedArgument
  ∧ ∃ self,
      PatchClampExperiment_init plain_Experiment_init false
        [("temperature", PyInt 20); ("cell", PyStr "ADAL")] = Ok self
      ∧ attr_get "temperature" self = Ok (One (Some (PyInt 20)))
      ∧ attr_get "cell" self = Ok (One (Some (PyStr "ADAL"))).
Proof.
  split.
  - apply (PatchClampExperiment_partitions_kwargs plain_Experiment_init false
             [("temperature", PyInt 20); ("cell", PyStr "ADAL");
              ("foo", PyInt 1)]); [nodup_keys|].
    vm_compute. reflexivity.
  - destruct (PatchClampExperiment_partitions_kwargs plain_Experiment_init
                false [("temperature", PyInt 20); ("cell", PyStr "ADAL")])
      as (_ & _ & _ & Hok); [nodup_keys|].
    destruct (Hok ∅) as (self & Hrun & Hval).
    + vm_compute. reflexivity.
    + intros c _. apply lookup_empty.
    + assert (Ht := Hval "temperature" (PyInt 20)).
      assert (Hc := Hval "cell" (PyStr "ADAL")).
      exists self. split; [done|]. split.
      * apply Ht; in_list.
      * apply Hc; in_list.
Defined.

(** C2: whatever keyword arguments were supplied, the attributes that the
    constructor of [PatchClampExperiment] adds to what the base constructor
    left are exactly the 21 names of the fixed list, each a single-valued
    datatype attribute; a supplied condition holds its value and every
    other one holds none. *)
Theorem PatchClampExperiment_declares_conditions
    (Experiment_init : bool → dict → result Obj)
    (reference : bool) (kwargs : dict) (self : Obj) :
  NoDup kwargs.*1 →
  PatchClampExperiment_init Experiment_init reference kwargs = Ok self →
  ∃ base,
    Experiment_init reference (forwarded kwargs) = Ok base ∧
    dom self ∖ dom base = list_to_set conditions ∧
    dom self = dom base ∪ list_to_set conditions ∧
    length conditions = 21%nat ∧ NoDup conditions ∧
    ∀ c, c ∈ conditions →
      self !! c = Some (mkProperty false Datatype
                          (match dict_get kwargs c with
                           | Some v => [v]
                           | None => []
                           end)).
Proof.
  intros Hnd Hrun.
  destruct (PatchClampExperiment_init_inv Experiment_init reference kwargs
              self Hnd Hrun) as (base & Hbase & Hfresh & Hlook).
  exists base. split; [done|].
  assert (Hdom : ∀ n, n ∈ dom self ↔ n ∈ conditions ∨ n ∈ dom base).
  { intros n. rewrite !elem_of_dom, Hlook. case_decide as Hn.
    - split; [by left|]. intros _. by eexists.
    - tauto. }
  assert (Hdisj : ∀ n, n ∈ conditions → n ∉ dom base).
  { intros n Hn. rewrite elem_of_dom, (Hfresh n Hn). by intros [? ?]. }
  split; [|split; [|split; [|split]]].
  - apply set_eq. intros n.
    rewrite elem_of_difference, Hdom, elem_of_list_to_set.
    specialize (Hdisj n). tauto.
  - apply set_eq. intros n.
    rewrite elem_of_union, Hdom, elem_of_list_to_set. tauto.
  - reflexivity.
  - apply conditions_NoDup.
  - intros c Hc. rewrite Hlook. by rewrite decide_True.
Qed.

Lemma PatchClampExperiment_declares_conditions_witness :
  ∃ base,
    plain_Experiment_init false (forwarded ex_kwargs) = Ok base ∧
    dom ex_experiment ∖ dom base = list_to_set conditions ∧
    dom ex_experiment = dom base ∪ list_to_set conditions ∧
    length conditions = 21%nat ∧ NoDup conditions ∧
    ∀ c, c ∈ conditions →
      ex_experiment !! c = Some (mkProperty false Datatype
                                   (match dict_get ex_kwargs c with
                                    | Some v => [v]
                                    | None => []
                                    end)).
Proof.
  apply (PatchClampExperiment_declares_conditions plain_Experiment_init false
           ex_kwargs ex_experiment).
  - nodup_keys.
  - vm_compute. reflexivity.
Defined.

(** ** Class definition and the registry *)

(** A declaration in a class body is what would raise when the class is
    defined: it conflicts with any name of the inherited schema. *)
Lemma declaration_in_body_conflicts (c : pyclass) (name : string)
    (mult : bool) (k : kind) (reg : Registry) :
  is_Some (resolve_schema reg c !! name) →
  exec_class_stmt c (Declaration name mult k) reg = Raise SchemaConflict.
Proof. intros [p Hp]. unfold exec_class_stmt, declare. by rewrite Hp. Qed.

(** A class body that makes no declaration leaves the registry as it
    found it and raises nothing. *)
Lemma body_without_declaration (c : pyclass) (body : list class_stmt)
    (reg : Registry) :
  (∀ name mult k, Declaration name mult k ∉ body) →
  for_each (exec_class_stmt c) body reg = Ok reg.
Proof.
  induction body as [|st body IH]; intros Hnone; [done|].
  assert (Hst : exec_class_stmt c st reg = Ok reg).
  { destruct st as [| | |name mult k]; try done.
    destruct (Hnone name mult k). apply list_elem_of_here. }
  simpl. rewrite Hst, bind_ret. apply IH.
  intros name mult k Hin. apply (Hnone name mult k).
  by apply list_elem_of_further.
Qed.

Lemma class_body_without_declaration (c : pyclass) name mult k :
  Declaration name mult k ∉ class_body c.
Proof.
  intros Hin.
  destruct c; simpl in Hin; repeat (inversion Hin as [|? ? ? Hin']; subst;
                                    clear Hin; rename Hin' into Hin).
Qed.

Lemma define_class_Ok (c : pyclass) (reg : Registry) :
  define_class c reg = Ok reg.
Proof.
  apply body_without_declaration. intros name mult k.
  apply class_body_without_declaration.
Qed.

Lemma import_module_Ok (reg : Registry) : import_module reg = Ok reg.
Proof.
  unfold import_module.
  induction module_classes as [|c l IH]; [done|].
  change (for_each define_class (c :: l) reg)
    with (reg' ← define_class c reg; for_each define_class l reg').
  by rewrite define_class_Ok, bind_ret.
Qed.

(** C6, as the code has it: defining the classes declares nothing and
    raises nothing, whatever the ancestors have declared, since no class
    body of the module holds a declaration; both constructors run their
    declarations inside [__init__], so a declaration whose name an
    ancestor's constructor has already attached to the instance raises
    [SchemaConflict] while the instance is constructed. *)
Theorem duplicate_declaration_raises_at_construction
    (reg : Registry)
    (Experiment_init : bool → dict → result Obj)
    (DataObject_init : list pyval → dict → result Obj)
    (reference : bool) (modelType : pyval) (args : list pyval)
    (kwargs : dict) (base : Obj) (c : string) :
  (import_module reg = Ok reg ∧
   ∀ cls, cls ∈ module_classes → define_class cls reg = Ok reg) ∧
  (NoDup kwargs.*1 →
   Experiment_init reference (forwarded kwargs) = Ok base →
   c ∈ conditions → is_Some (base !! c) →
   PatchClampExperiment_init Experiment_init reference kwargs
   = Raise SchemaConflict) ∧
  (DataObject_init args kwargs = Ok base →
   c ∈ ChannelModel_names → is_Some (base !! c) →
   ChannelModel_init DataObject_init modelType args kwargs
   = Raise SchemaConflict).
Proof.
  split; [|split].
  - split; [apply import_module_Ok|]. intros cls _. apply define_class_Ok.
  - intros Hnd Hbase Hc Hsome.
    apply (PatchClampExperiment_init_declare_Raise _ _ _ base); [done..|].
    by apply (declare_each_conflict conditions base c).
  - intros Hbase Hc Hsome.
    by apply (ChannelModel_init_conflict _ _ _ _ base c).
Qed.

Lemma duplicate_declaration_raises_at_construction_witness :
  import_module ex_registry = Ok ex_registry
  ∧ PatchClampExperiment_init (schema_Experiment_init ex_registry) false
      [("cell", PyStr "ADAL")]
    = Raise SchemaConflict
  ∧ ChannelModel_init (schema_DataObject_init ex_registry) (PyBool false)
      [] []
    = Raise SchemaConflict.
Proof.
  split; [|split].
  - apply (proj1 (proj1 (duplicate_declaration_raises_at_construction
                           ex_registry
                           (schema_Experiment_init ex_registry)
                           (schema_DataObject_init ex_registry)
                           false (PyBool false) [] [] ∅ "type"))).
  - apply (proj1 (proj2 (duplicate_declaration_raises_at_construction
                           ex_registry
                           (schema_Experiment_init ex_registry)
                           (schema_DataObject_init ex_registry)
                           false (PyBool false) [] [("cell", PyStr "ADAL")]
                           (resolve_schema ex_registry Experiment) "type"))).
    + nodup_keys.
    + vm_compute. reflexivity.
    + in_list.
    + vm_compute. by eexists.
  - apply (proj2 (proj2 (duplicate_declaration_raises_at_construction
                           ex_registry
                           (schema_Experiment_init ex_registry)
                           (schema_DataObject_init ex_registry)
                           false (PyBool false) [] []
                           (resolve_schema ex_registry DataObject) "ion"))).
    + vm_compute. reflexivity.
    + in_list.
    + vm_compute. by eexists.
Defined.

(** C6 as stated fails: with [type] in the schema that
    [PatchClampExperiment] inherits from [Experiment], defining the classes
    of the module raises nothing, and the call that constructs an instance
    is what raises [SchemaConflict]. *)
Lemma schema_conflict_at_construction_time :
  "type" ∈ conditions
  ∧ is_Some (resolve_schema ex_registry PatchClampExperiment !! "type")
  ∧ define_class PatchClampExperiment ex_registry = Ok ex_registry
  ∧ import_module ex_registry = Ok ex_registry
  ∧ PatchClampExperiment_init (schema_Experiment_init ex_registry) false []
    = Raise SchemaConflict.
Proof.
  split; [in_list|]. split; [vm_compute; by eexists|].
  split; [vm_compute; reflexivity|].
  split; vm_compute; reflexivity.
Qed.

(** ** ChannelModel: what a successful construction implies *)

Lemma ChannelModel_init_inv
    (DataObject_init : list pyval → dict → result Obj)
    (modelType : pyval) (args : list pyval) (kwargs : dict) (self : Obj) :
  ChannelModel_init DataObject_init modelType args kwargs = Ok self →
  ∃ base, DataObject_init args kwargs = Ok base ∧
          ∀ c, c ∈ ChannelModel_names → base !! c = None.
Proof.
  intros Hrun. destruct (DataObject_init args kwargs) as [base|e] eqn:Hbase.
  - exists base. split; [done|]. intros c Hc.
    destruct (base !! c) as [p|] eqn:Hp; [|done].
    rewrite (ChannelModel_init_conflict DataObject_init modelType args kwargs
               base c Hbase Hc) in Hrun by by eexists.
    done.
  - by rewrite (ChannelModel_init_Raise _ _ _ _ e Hbase) in Hrun.
Qed.

Lemma stored_with_modelType (v : string) (self : Obj) :
  stored "modelType" (with_modelType v self) = [PyStr v].
Proof. unfold stored, with_modelType. by rewrite lookup_insert_eq. Qed.

Lemma stored_declared_modelType (base : Obj) :
  stored "modelType" (ChannelModel_declared base) = [].
Proof. unfold stored. by rewrite ChannelModel_declared_modelType. Qed.

Lemma ChannelModel_declared_ion (base : Obj) :
  ChannelModel_declared base !! "ion" = Some (mkProperty true Datatype []).
Proof.
  unfold ChannelModel_declared.
  rewrite !lookup_insert_ne by done. apply lookup_insert_eq.
Qed.

(** The instance of a successful construction has [ion] declared
    multi-valued and empty. *)
Lemma ChannelModel_init_ion
    (DataObject_init : list pyval → dict → result Obj)
    (modelType : pyval) (args : list pyval) (kwargs : dict) (self : Obj) :
  ChannelModel_init DataObject_init modelType args kwargs = Ok self →
  self !! "ion" = Some (mkProperty true Datatype []).
Proof.
  intros Hrun.
  destruct (ChannelModel_init_inv _ _ _ _ _ Hrun) as (base & Hbase & Hfresh).
  rewrite (ChannelModel_init_declares _ _ _ _ base Hbase Hfresh) in Hrun.
  cbv zeta in Hrun.
  assert (Hw : ∀ v, with_modelType v (ChannelModel_declared base) !! "ion"
                    = Some (mkProperty true Datatype [])).
  { intros v. unfold with_modelType. rewrite lookup_insert_ne by done.
    apply ChannelModel_declared_ion. }
  destruct modelType as [| | |s|];
    try (injection Hrun as <-; apply ChannelModel_declared_ion).
  repeat case_decide; injection Hrun as <-;
    auto using ChannelModel_declared_ion.
Qed.

Definition ex_model : Obj :=
  match ChannelModel_init plain_DataObject_init (PyBool false) [] [] with
  | Ok self => self
  | Raise _ => ∅
  end.

Lemma ex_model_built :
  ChannelModel_init plain_DataObject_init (PyBool false) [] [] = Ok ex_model.
Proof. vm_compute. reflexivity. Qed.

(** C8: on a [ChannelModel] instance, setting [ion] twice keeps both
    values; reading it back gives the sequence of the two, in the order
    they were set, also when the two values are equal. *)
Theorem ChannelModel_ion_accumulates
    (DataObject_init : list pyval → dict → result Obj)
    (modelType : pyval) (args : list pyval) (kwargs : dict) (self : Obj)
    (v1 v2 : pyval) :
  ChannelModel_init DataObject_init modelType args kwargs = Ok self →
  ∃ self1 self2,
    attr_set "ion" v1 self = Ok self1 ∧
    attr_set "ion" v2 self1 = Ok self2 ∧
    attr_get "ion" self2 = Ok (Many [v1; v2]) ∧
    length [v1; v2] = 2%nat.
Proof.
  intros Hrun. apply ChannelModel_init_ion in Hrun.
  exists (<["ion" := mkProperty true Datatype [v1]]> self),
         (<["ion" := mkProperty true Datatype [v1; v2]]>
            (<["ion" := mkProperty true Datatype [v1]]> self)).
  repeat split.
  - unfold attr_set, getattr. by rewrite Hrun.
  - unfold attr_set, getattr. by rewrite lookup_insert_eq.
  - unfold attr_get, getattr. by rewrite lookup_insert_eq.
Qed.

Lemma ChannelModel_ion_accumulates_witness :
  ∃ self1 self2,
    attr_set "ion" (PyStr "Ca") ex_model = Ok self1 ∧
    attr_set "ion" (PyStr "K") self1 = Ok self2 ∧
    attr_get "ion" self2 = Ok (Many [PyStr "Ca"; PyStr "K"]) ∧
    length [PyStr "Ca"; PyStr "K"] = 2%nat.
Proof.
  apply (ChannelModel_ion_accumulates plain_DataObject_init (PyBool false)
           [] [] ex_model (PyStr "Ca") (PyStr "K")).
  vm_compute. reflexivity.
Defined.

(** C10: with no [modelType] argument (the default [False]) or any value
    that is not a string, [ChannelModel.__init__] raises nothing of its
    own: when the base constructor returns and has not taken the four
    names, the construction succeeds, [modelType] is declared, and it holds
    no value. *)
Theorem ChannelModel_non_string_modelType
    (DataObject_init : list pyval → dict → result Obj)
    (modelType : pyval) (args : list pyval) (kwargs : dict) (base : Obj) :
  (∀ s, modelType ≠ PyStr s) →
  DataObject_init args kwargs = Ok base →
  (∀ c, c ∈ ChannelModel_names → base !! c = None) →
  ∃ self,
    ChannelModel_init DataObject_init modelType args kwargs = Ok self ∧
    self !! "modelType" = Some (mkProperty false Datatype []) ∧
    stored "modelType" self = [] ∧
    attr_get "modelType" self = Ok (One None).
Proof.
  intros Hns Hbase Hfresh. exists (ChannelModel_declared base).
  rewrite (ChannelModel_init_declares _ _ _ _ base Hbase Hfresh). cbv zeta.
  split; [|split; [|split]].
  - destruct modelType as [| | |s|]; try done. by destruct (Hns s).
  - apply ChannelModel_declared_modelType.
  - apply stored_declared_modelType.
  - unfold attr_get, getattr. by rewrite ChannelModel_declared_modelType.
Qed.

Lemma ChannelModel_non_string_modelType_witness :
  ∃ self,
    ChannelModel_init plain_DataObject_init (PyBool false) [] [] = Ok self ∧
    self !! "modelType" = Some (mkProperty false Datatype []) ∧
    stored "modelType" self = [] ∧
    attr_get "modelType" self = Ok (One None).
Proof.
  apply (ChannelModel_non_string_modelType plain_DataObject_init
           (PyBool false) [] [] ∅).
  - intros s. discriminate.
  - reflexivity.
  - intros c _. apply lookup_empty.
Defined.

(** What [modelType] holds after construction from a string. *)
Lemma ChannelModel_init_str
    (DataObject_init : list pyval → dict → result Obj)
    (s : string) (args : list pyval) (kwargs : dict) (base : Obj) :
  DataObject_init args kwargs = Ok base →
  (∀ c, c ∈ ChannelModel_names → base !! c = None) →
  ∃ self,
    ChannelModel_init DataObject_init (PyStr s) args kwargs = Ok self ∧
    stored "modelType" self =
      if decide (lower s = "homology") then [PyStr homologyEstimate]
      else if decide (lower s = "patch-clamp") then [PyStr patchClamp]
      else [].
Proof.
  intros Hbase Hfresh.
  rewrite (ChannelModel_init_declares _ _ _ _ base Hbase Hfresh). cbv zeta.
  repeat case_decide; eexists; (split; [reflexivity|]);
    auto using stored_with_modelType, stored_declared_modelType.
Qed.

(** C3, as the code has it: the constructor lower-cases a string
    [modelType] and compares it, untrimmed and character for character,
    with the two aliases.  Nothing is raised and [modelType] is declared
    single-valued whatever the string is; it holds the homology-estimate
    sentinel for [homology], the patch-clamp sentinel for [patch-clamp],
    and stays declared and empty for any other string that does not spell
    one of the two sentinels. *)
Theorem ChannelModel_modelType_normalization
    (DataObject_init : list pyval → dict → result Obj)
    (s : string) (args : list pyval) (kwargs : dict) (base : Obj) :
  DataObject_init args kwargs = Ok base →
  (∀ c, c ∈ ChannelModel_names → base !! c = None) →
  ∃ self,
    ChannelModel_init DataObject_init (PyStr s) args kwargs = Ok self ∧
    (∃ vs, self !! "modelType" = Some (mkProperty false Datatype vs)) ∧
    (lower s = "homology" →
     self !! "modelType"
     = Some (mkProperty false Datatype [PyStr homologyEstimate]) ∧
     stored "modelType" self = [PyStr homologyEstimate]) ∧
    (lower s = "patch-clamp" →
     self !! "modelType"
     = Some (mkProperty false Datatype [PyStr patchClamp]) ∧
     stored "modelType" self = [PyStr patchClamp]) ∧
    (lower s ≠ "homology" → lower s ≠ "patch-clamp" →
     lower s ≠ lower homologyEstimate → lower s ≠ lower patchClamp →
     self !! "modelType" = Some (mkProperty false Datatype []) ∧
     stored "modelType" self = [] ∧
     attr_get "modelType" self = Ok (One None)).
Proof.
  intros Hbase Hfresh.
  rewrite (ChannelModel_init_declares _ _ _ _ base Hbase Hfresh). cbv zeta.
  assert (Hset : ∀ v,
            with_modelType v (ChannelModel_declared base) !! "modelType"
            = Some (mkProperty false Datatype [PyStr v])).
  { intros v. unfold with_modelType. apply lookup_insert_eq. }
  pose proof (ChannelModel_declared_modelType base) as Hdecl.
  repeat case_decide; eexists; (split; [reflexivity|]).
  - split; [by eexists|]. repeat split; try congruence;
      auto using stored_with_modelType.
  - split; [by eexists|]. repeat split; try congruence;
      auto using stored_with_modelType.
  - split; [by eexists|]. repeat split; try congruence;
      auto using stored_declared_modelType.
    unfold attr_get, getattr. by rewrite Hdecl.
Qed.

Lemma ChannelModel_modelType_normalization_witness :
  (∃ self,
     ChannelModel_init plain_DataObject_init (PyStr "Patch-Clamp") [] []
     = Ok self ∧
     stored "modelType" self = [PyStr patchClamp]) ∧
  (∃ self,
     ChannelModel_init plain_DataObject_init (PyStr "simulation") [] []
     = Ok self ∧
     self !! "modelType" = Some (mkProperty false Datatype [])).
Proof.
  split.
  - destruct (ChannelModel_modelType_normalization plain_DataObject_init
                "Patch-Clamp" [] [] ∅) as (self & Hrun & _ & _ & Hpc & _).
    + reflexivity.
    + intros c _. apply lookup_empty.
    + exists self. split; [done|]. apply Hpc. reflexivity.
  - destruct (ChannelModel_modelType_normalization plain_DataObject_init
                "simulation" [] [] ∅) as (self & Hrun & _ & _ & _ & Hno).
    + reflexivity.
    + intros c _. apply lookup_empty.
    + exists self. split; [done|].
      apply Hno; vm_compute; discriminate.
Defined.

(** C3 as stated fails: an alias with surrounding blanks is not trimmed, a
    blank in place of the hyphen is not tolerated, and an unrecognized
    string is not stored; each leaves [modelType] empty. *)
Lemma modelType_untrimmed_or_unknown_is_dropped :
  (∃ self, ChannelModel_init plain_DataObject_init (PyStr " homology ") [] []
           = Ok self ∧ stored "modelType" self = []) ∧
  (∃ self, ChannelModel_init plain_DataObject_init (PyStr "patch clamp") [] []
           = Ok self ∧ stored "modelType" self = []) ∧
  (∃ self, ChannelModel_init plain_DataObject_init (PyStr "simulation") [] []
           = Ok self ∧ stored "modelType" self = []
           ∧ stored "modelType" self ≠ [PyStr "simulation"]).
Proof.
  repeat split; eexists; repeat split;
    try (vm_compute; reflexivity); vm_compute; discriminate.
Qed.

(** C4, as the code has it: [homology] and [Homology] both store the
    homology-estimate sentinel, and the unrecognized [unknown-value]
    stores nothing and raises nothing. *)
Theorem modelType_homology_examples
    (DataObject_init : list pyval → dict → result Obj)
    (args : list pyval) (kwargs : dict) (base : Obj) :
  DataObject_init args kwargs = Ok base →
  (∀ c, c ∈ ChannelModel_names → base !! c = None) →
  ∃ self1 self2 self3,
    ChannelModel_init DataObject_init (PyStr "homology") args kwargs
    = Ok self1 ∧
    ChannelModel_init DataObject_init (PyStr "Homology") args kwargs
    = Ok self2 ∧
    ChannelModel_init DataObject_init (PyStr "unknown-value") args kwargs
    = Ok self3 ∧
    stored "modelType" self1 = [PyStr homologyEstimate] ∧
    stored "modelType" self2 = [PyStr homologyEstimate] ∧
    stored "modelType" self3 = [].
Proof.
  intros Hbase Hfresh.
  destruct (ChannelModel_init_str DataObject_init "homology" args kwargs
              base Hbase Hfresh) as (self1 & Hrun1 & Hst1).
  destruct (ChannelModel_init_str DataObject_init "Homology" args kwargs
              base Hbase Hfresh) as (self2 & Hrun2 & Hst2).
  destruct (ChannelModel_init_str DataObject_init "unknown-value" args kwargs
              base Hbase Hfresh) as (self3 & Hrun3 & Hst3).
  exists self1, self2, self3. by repeat split.
Qed.

Lemma modelType_homology_examples_witness :
  ∃ self1 self2 self3,
    ChannelModel_init plain_DataObject_init (PyStr "homology") [] []
    = Ok self1 ∧
    ChannelModel_init plain_DataObject_init (PyStr "Homology") [] []
    = Ok self2 ∧
    ChannelModel_init plain_DataObject_init (PyStr "unknown-value") [] []
    = Ok self3 ∧
    stored "modelType" self1 = [PyStr homologyEstimate] ∧
    stored "modelType" self2 = [PyStr homologyEstimate] ∧
    stored "modelType" self3 = [].
Proof.
  apply (modelType_homology_examples plain_DataObject_init [] [] ∅).
  - reflexivity.
  - intros c _. apply lookup_empty.
Defined.

(** C4 as stated fails: [unknown-value] is not passed through; the
    attribute holds nothing after the construction. *)
Lemma unknown_value_is_not_stored :
  ∃ self,
    ChannelModel_init plain_DataObject_init (PyStr "unknown-value") [] []
    = Ok self ∧
    stored "modelType" self = [] ∧
    stored "modelType" self ≠ [PyStr "unknown-value"].
Proof.
  eexists. repeat split; try (vm_compute; reflexivity).
  vm_compute. discriminate.
Qed.

(** The sentinel strings themselves are compared after lower-casing with
    their mixed-case spelling, so neither is recognized. *)
Lemma sentinel_is_not_recognized :
  ∃ self1 self2,
    ChannelModel_init plain_DataObject_init (PyStr homologyEstimate) [] []
    = Ok self1 ∧
    ChannelModel_init plain_DataObject_init (PyStr patchClamp) [] []
    = Ok self2 ∧
    stored "modelType" self1 = [] ∧ stored "modelType" self2 = [].
Proof. do 2 eexists. repeat split; vm_compute; reflexivity. Qed.

(** ** The two specializations *)

Lemma call_with_modelType_Ok {A : Type}
    (f : pyval → list pyval → dict → result A) (v : pyval) (kwargs : dict)
    (a : A) :
  call_with_modelType f v kwargs = Ok a ↔
  ("modelType" ∉ kwargs.*1) ∧ f v [] kwargs = Ok a.
Proof.
  unfold call_with_modelType. case_bool_decide; split; try tauto; try done.
Qed.

Lemma specialization_inv
    (DataObject_init : list pyval → dict → result Obj)
    (alias attr : string) (target : pyclass) (kwargs : dict) (self : Obj) :
  (self' ← call_with_modelType (ChannelModel_init DataObject_init)
             (PyStr alias) kwargs;
   Ok (setattr attr (ObjectProperty target) self')) = Ok self →
  ("modelType" ∉ kwargs.*1) ∧
  ∃ parent,
    ChannelModel_init DataObject_init (PyStr alias) [] kwargs = Ok parent ∧
    self = <[attr := mkProperty false (Relationship target) []]> parent.
Proof.
  intros (parent & Hcall & Hset)%bind_Ok.
  apply call_with_modelType_Ok in Hcall as [Hkw Hrun].
  split; [done|]. exists parent. split; [done|].
  by injection Hset as <-.
Qed.

(** The property [modelType] after construction from a string. *)
Lemma ChannelModel_init_str_lookup
    (DataObject_init : list pyval → dict → result Obj)
    (s : string) (args : list pyval) (kwargs : dict) (self : Obj) :
  ChannelModel_init DataObject_init (PyStr s) args kwargs = Ok self →
  self !! "modelType" =
    Some (mkProperty false Datatype
            (if decide (lower s = "homology") then [PyStr homologyEstimate]
             else if decide (lower s = "patch-clamp") then [PyStr patchClamp]
             else [])).
Proof.
  intros Hrun.
  destruct (ChannelModel_init_inv _ _ _ _ _ Hrun) as (base & Hbase & Hfresh).
  rewrite (ChannelModel_init_declares _ _ _ _ base Hbase Hfresh) in Hrun.
  cbv zeta in Hrun.
  repeat case_decide; injection Hrun as <-;
    try apply ChannelModel_declared_modelType;
    unfold with_modelType; by rewrite lookup_insert_eq.
Qed.

Lemma single_valued_get (name : string) (self : Obj) (v : pyval) :
  self !! name = Some (mkProperty false Datatype [v]) →
  stored name self = [v] ∧ attr_get name self = Ok (One (Some v)).
Proof. intros H. unfold stored, attr_get, getattr. by rewrite H. Qed.

(** C5: [PatchClampChannelModel] passes [modelType='patch-clamp'] itself.
    A caller who also passes [modelType] gets a [TypeError] and no
    instance; every instance the constructor returns holds the patch-clamp
    sentinel as its [modelType]; and the construction does return one
    whenever the base constructor accepts the keywords and has not declared
    the four names. *)
Theorem PatchClampChannelModel_fixes_modelType
    (DataObject_init : list pyval → dict → result Obj) (kwargs : dict) :
  ("modelType" ∈ kwargs.*1 →
   PatchClampChannelModel_init DataObject_init kwargs = Raise TypeError) ∧
  (∀ self,
     PatchClampChannelModel_init DataObject_init kwargs = Ok self →
     stored "modelType" self = [PyStr patchClamp] ∧
     attr_get "modelType" self = Ok (One (Some (PyStr patchClamp)))) ∧
  (∀ base,
     "modelType" ∉ kwargs.*1 →
     DataObject_init [] kwargs = Ok base →
     (∀ c, c ∈ ChannelModel_names → base !! c = None) →
     ∃ self, PatchClampChannelModel_init DataObject_init kwargs = Ok self).
Proof.
  split; [|split].
  - intros Hin. unfold PatchClampChannelModel_init, call_with_modelType.
    by rewrite bool_decide_eq_true_2.
  - intros self Hrun. apply specialization_inv in Hrun
      as (_ & parent & Hparent & ->).
    apply ChannelModel_init_str_lookup in Hparent.
    apply single_valued_get. by rewrite lookup_insert_ne.
  - intros base Hkw Hbase Hfresh.
    destruct (ChannelModel_init_str DataObject_init "patch-clamp" [] kwargs
                base Hbase Hfresh) as (parent & Hrun & _).
    eexists. unfold PatchClampChannelModel_init, call_with_modelType.
    rewrite bool_decide_eq_false_2 by done. by rewrite Hrun.
Qed.

Lemma PatchClampChannelModel_fixes_modelType_witness :
  PatchClampChannelModel_init plain_DataObject_init
    [("modelType", PyStr "homology")] = Raise TypeError
  ∧ ∃ self,
      PatchClampChannelModel_init plain_DataObject_init [] = Ok self
      ∧ stored "modelType" self = [PyStr patchClamp]
      ∧ attr_get "modelType" self = Ok (One (Some (PyStr patchClamp))).
Proof.
  split.
  - apply (proj1 (PatchClampChannelModel_fixes_modelType
                    plain_DataObject_init [("modelType", PyStr "homology")])).
    in_list.
  - destruct (PatchClampChannelModel_fixes_modelType plain_DataObject_init [])
      as (_ & Hfix & Hok).
    destruct (Hok ∅) as [self Hrun].
    + vm_compute. intros H. inversion H.
    + reflexivity.
    + intros c _. apply lookup_empty.
    + exists self. split; [done|]. by apply Hfix.
Defined.

(** C7: each specialization returns the instance its parent constructor
    built with the fixed alias, holding the matching sentinel as
    [modelType], and with one attribute bound on top: a single-valued
    relationship, [modeled_from] to [PatchClampExperiment] for the one,
    [homolog] to [Channel] for the other.  Every other attribute is the
    parent's, and the new name is none of those [ChannelModel] declares. *)
Theorem specializations_add_one_relationship
    (DataObject_init : list pyval → dict → result Obj) (kwargs : dict)
    (self : Obj) :
  (PatchClampChannelModel_init DataObject_init kwargs = Ok self →
   ∃ parent,
     ChannelModel_init DataObject_init (PyStr "patch-clamp") [] kwargs
     = Ok parent ∧
     stored "modelType" self = [PyStr patchClamp] ∧
     self !! "modeled_from"
     = Some (mkProperty false (Relationship PatchClampExperiment) []) ∧
     (∀ n, n ≠ "modeled_from" → self !! n = parent !! n) ∧
     dom self = dom parent ∪ {["modeled_from"]} ∧
     "modeled_from" ∉ ChannelModel_names) ∧
  (HomologyChannelModel_init DataObject_init kwargs = Ok self →
   ∃ parent,
     ChannelModel_init DataObject_init (PyStr "homology") [] kwargs
     = Ok parent ∧
     stored "modelType" self = [PyStr homologyEstimate] ∧
     self !! "homolog" = Some (mkProperty false (Relationship Channel) []) ∧
     (∀ n, n ≠ "homolog" → self !! n = parent !! n) ∧
     dom self = dom parent ∪ {["homolog"]} ∧
     "homolog" ∉ ChannelModel_names).
Proof.
  split; intros Hrun;
    apply specialization_inv in Hrun as (_ & parent & Hparent & ->);
    exists parent; (split; [done|]);
    apply ChannelModel_init_str_lookup in Hparent;
    (split; [|split; [|split; [|split]]]).
  - apply single_valued_get. by rewrite lookup_insert_ne.
  - apply lookup_insert_eq.
  - intros n Hn. by rewrite lookup_insert_ne.
  - rewrite dom_insert_L. apply (comm_L (∪)).
  - in_list.
  - apply single_valued_get. by rewrite lookup_insert_ne.
  - apply lookup_insert_eq.
  - intros n Hn. by rewrite lookup_insert_ne.
  - rewrite dom_insert_L. apply (comm_L (∪)).
  - in_list.
Qed.

Definition ex_patch_clamp_model : Obj :=
  match PatchClampChannelModel_init plain_DataObject_init [] with
  | Ok self => self
  | Raise _ => ∅
  end.

Definition ex_homology_model : Obj :=
  match HomologyChannelModel_init plain_DataObject_init [] with
  | Ok self => self
  | Raise _ => ∅
  end.

Lemma specializations_add_one_relationship_witness :
  (∃ parent,
     ChannelModel_init plain_DataObject_init (PyStr "patch-clamp") [] []
     = Ok parent ∧
     stored "modelType" ex_patch_clamp_model = [PyStr patchClamp] ∧
     ex_patch_clamp_model !! "modeled_from"
     = Some (mkProperty false (Relationship PatchClampExperiment) []) ∧
     (∀ n, n ≠ "modeled_from" → ex_patch_clamp_model !! n = parent !! n) ∧
     dom ex_patch_clamp_model = dom parent ∪ {["modeled_from"]} ∧
     "modeled_from" ∉ ChannelModel_names) ∧
  (∃ parent,
     ChannelModel_init plain_DataObject_init (PyStr "homology") [] []
     = Ok parent ∧
     stored "modelType" ex_homology_model = [PyStr homologyEstimate] ∧
     ex_homology_model !! "homolog"
     = Some (mkProperty false (Relationship Channel) []) ∧
     (∀ n, n ≠ "homolog" → ex_homology_model !! n = parent !! n) ∧
     dom ex_homology_model = dom parent ∪ {["homolog"]} ∧
     "homolog" ∉ ChannelModel_names).
Proof.
  split.
  - apply (proj1 (specializations_add_one_relationship
                    plain_DataObject_init [] ex_patch_clamp_model)).
    vm_compute. reflexivity.
  - apply (proj2 (specializations_add_one_relationship
                    plain_DataObject_init [] ex_homology_model)).
    vm_compute. reflexivity.
Defined.

(** * Further properties of the constructors *)

Lemma fresh_or_taken (names : list string) (base : Obj) :
  (∀ c, c ∈ names → base !! c = None) ∨
  (∃ c, c ∈ names ∧ is_Some (base !! c)).
Proof.
  induction names as [|c names [IH|(c' & Hc' & Hs)]].
  - left. intros c Hc. by apply elem_of_nil in Hc.
  - destruct (base !! c) as [p|] eqn:Hp.
    + right. exists c. split; [apply list_elem_of_here|]. by rewrite Hp.
    + left. intros c' [->|Hc']%elem_of_cons; auto.
  - right. exists c'. split; [by apply list_elem_of_further|done].
Qed.

(** X6: [ChannelModel.__init__] raises exactly what its base constructor
    raises, or [SchemaConflict] when the base has already attached one of
    the four names; the normalization of [modelType] never raises. *)
Theorem ChannelModel_raises_iff
    (DataObject_init : list pyval → dict → result Obj)
    (modelType : pyval) (args : list pyval) (kwargs : dict) (e : exn) :
  ChannelModel_init DataObject_init modelType args kwargs = Raise e ↔
  DataObject_init args kwargs = Raise e ∨
  (e = SchemaConflict ∧
   ∃ base c, DataObject_init args kwargs = Ok base ∧
             c ∈ ChannelModel_names ∧ is_Some (base !! c)).
Proof.
  split.
  - intros Hrun.
    destruct (DataObject_init args kwargs) as [base|e'] eqn:Hbase.
    + right. destruct (fresh_or_taken ChannelModel_names base)
        as [Hfresh|(c & Hc & Hs)].
      * rewrite (ChannelModel_init_declares _ _ _ _ base Hbase Hfresh)
          in Hrun.
        cbv zeta in Hrun.
        destruct modelType; try done. by repeat case_decide.
      * rewrite (ChannelModel_init_conflict _ _ _ _ base c Hbase Hc Hs)
          in Hrun.
        injection Hrun as <-. split; [done|]. by exists base, c.
    + left. rewrite (ChannelModel_init_Raise _ _ _ _ e' Hbase) in Hrun.
      by injection Hrun as ->.
  - intros [Hbase|(-> & base & c & Hbase & Hc & Hs)].
    + by apply ChannelModel_init_Raise.
    + by apply (ChannelModel_init_conflict _ _ _ _ base c).
Qed.

(** X5: every [ChannelModel] instance has, on top of the base's
    attributes, exactly [modelType], [ion], [gating] and [conductance]:
    [ion] and [gating] multi-valued, the other two single-valued, all but
    [modelType] holding nothing; what the base attached is untouched. *)
Theorem ChannelModel_declares_four
    (DataObject_init : list pyval → dict → result Obj)
    (modelType : pyval) (args : list pyval) (kwargs : dict) (self : Obj) :
  ChannelModel_init DataObject_init modelType args kwargs = Ok self →
  ∃ base,
    DataObject_init args kwargs = Ok base ∧
    dom self ∖ dom base = list_to_set ChannelModel_names ∧
    dom self = dom base ∪ list_to_set ChannelModel_names ∧
    (∃ vs, self !! "modelType" = Some (mkProperty false Datatype vs)) ∧
    self !! "ion" = Some (mkProperty true Datatype []) ∧
    self !! "gating" = Some (mkProperty true Datatype []) ∧
    self !! "conductance" = Some (mkProperty false Datatype []) ∧
    ∀ n, n ∉ ChannelModel_names → self !! n = base !! n.
Proof.
  intros Hrun.
  destruct (ChannelModel_init_inv _ _ _ _ _ Hrun) as (base & Hbase & Hfresh).
  exists base. split; [done|].
  rewrite (ChannelModel_init_declares _ _ _ _ base Hbase Hfresh) in Hrun.
  cbv zeta in Hrun.
  assert (Hshape : ∃ vs, self = <["modelType" := mkProperty false Datatype vs]>
                                  (ChannelModel_declared base)).
  { assert (Hid : ChannelModel_declared base
                  = <["modelType" := mkProperty false Datatype []]>
                      (ChannelModel_declared base)).
    { symmetry. apply insert_id, ChannelModel_declared_modelType. }
    destruct modelType; try (injection Hrun as <-; by exists []).
    repeat case_decide; injection Hrun as <-;
      try (by eexists); by exists []. }
  destruct Hshape as [vs ->]. clear Hrun.
  assert (Hlook : ∀ n, n ∉ ChannelModel_names →
            <["modelType" := mkProperty false Datatype vs]>
              (ChannelModel_declared base) !! n = base !! n).
  { intros n Hn. unfold ChannelModel_names in Hn.
    rewrite !elem_of_cons, elem_of_nil in Hn.
    unfold ChannelModel_declared.
    rewrite !lookup_insert_ne by naive_solver. done. }
  assert (Hdom : ∀ n, n ∈ dom (<["modelType" := mkProperty false Datatype vs]>
                                 (ChannelModel_declared base))
                      ↔ n ∈ ChannelModel_names ∨ n ∈ dom base).
  { intros n. destruct (decide (n ∈ ChannelModel_names)) as [Hn|Hn].
    - split; [by left|]. intros _. apply elem_of_dom.
      unfold ChannelModel_names in Hn.
      repeat (apply elem_of_cons in Hn as [->|Hn];
              [unfold ChannelModel_declared;
               rewrite ?lookup_insert_eq, ?lookup_insert_ne by done;
               rewrite ?lookup_insert_eq, ?lookup_insert_ne by done;
               rewrite ?lookup_insert_eq, ?lookup_insert_ne by done;
               rewrite ?lookup_insert_eq, ?lookup_insert_ne by done;
               rewrite ?lookup_insert_eq; by eexists|]).
      by apply elem_of_nil in Hn.
    - rewrite !elem_of_dom, (Hlook n Hn). tauto. }
  assert (Hdisj : ∀ n, n ∈ ChannelModel_names → n ∉ dom base).
  { intros n Hn. rewrite elem_of_dom, (Hfresh n Hn). by intros [? ?]. }
  split; [|split; [|split; [|split; [|split; [|split]]]]].
  - apply set_eq. intros n.
    rewrite elem_of_difference, Hdom, elem_of_list_to_set.
    specialize (Hdisj n). tauto.
  - apply set_eq. intros n.
    rewrite elem_of_union, Hdom, elem_of_list_to_set. tauto.
  - exists vs. apply lookup_insert_eq.
  - rewrite lookup_insert_ne by done. apply ChannelModel_declared_ion.
  - rewrite lookup_insert_ne by done. unfold ChannelModel_declared.
    rewrite lookup_insert_ne by done. apply lookup_insert_eq.
  - rewrite lookup_insert_ne by done. apply lookup_insert_eq.
  - exact Hlook.
Qed.

Lemma ChannelModel_declares_four_witness :
  ∃ base,
    plain_DataObject_init [] [] = Ok base ∧
    dom ex_model ∖ dom base = list_to_set ChannelModel_names ∧
    dom ex_model = dom base ∪ list_to_set ChannelModel_names ∧
    (∃ vs, ex_model !! "modelType" = Some (mkProperty false Datatype vs)) ∧
    ex_model !! "ion" = Some (mkProperty true Datatype []) ∧
    ex_model !! "gating" = Some (mkProperty true Datatype []) ∧
    ex_model !! "conductance" = Some (mkProperty false Datatype []) ∧
    ∀ n, n ∉ ChannelModel_names → ex_model !! n = base !! n.
Proof.
  apply (ChannelModel_declares_four plain_DataObject_init (PyBool false)
           [] [] ex_model).
  vm_compute. reflexivity.
Defined.

(** X2: [modelType] never holds anything but a sentinel.  After a
    successful construction it holds the homology-estimate sentinel exactly
    when the argument is a string that lower-cases to [homology], the
    patch-clamp sentinel exactly when it lower-cases to [patch-clamp], and
    nothing in every other case. *)
Theorem modelType_populated_iff_alias
    (DataObject_init : list pyval → dict → result Obj)
    (modelType : pyval) (args : list pyval) (kwargs : dict) (self : Obj) :
  ChannelModel_init DataObject_init modelType args kwargs = Ok self →
  (stored "modelType" self = [PyStr homologyEstimate] ↔
   ∃ s, modelType = PyStr s ∧ lower s = "homology") ∧
  (stored "modelType" self = [PyStr patchClamp] ↔
   ∃ s, modelType = PyStr s ∧ lower s = "patch-clamp") ∧
  (stored "modelType" self = [] ↔
   ∀ s, modelType = PyStr s →
        lower s ≠ "homology" ∧ lower s ≠ "patch-clamp").
Proof.
  intros Hrun.
  destruct (ChannelModel_init_inv _ _ _ _ _ Hrun) as (base & Hbase & Hfresh).
  destruct modelType as [| |n|s|c i].
  1-3,5: rewrite (ChannelModel_init_declares _ _ _ _ base Hbase Hfresh)
           in Hrun;
         injection Hrun as <-; rewrite stored_declared_modelType;
         (split; [|split]); split; try done;
         by intros (s & ? & _).
  apply ChannelModel_init_str_lookup in Hrun.
  unfold stored. rewrite Hrun. simpl.
  destruct (decide (lower s = "homology")) as [Hh|Hh];
    [|destruct (decide (lower s = "patch-clamp")) as [Hp|Hp]].
  - split; [|split]; split; try done.
    + intros _. by exists s.
    + intros (s' & [= <-] & Hp). by rewrite Hh in Hp.
    + intros H. by destruct (H s eq_refl) as [? _].
  - split; [|split]; split; try done.
    + intros (s' & [= <-] & ?). done.
    + intros _. by exists s.
    + intros H. by destruct (H s eq_refl) as [_ ?].
  - split; [|split]; split; try done.
    + intros (s' & [= <-] & ?). done.
    + intros (s' & [= <-] & ?). done.
    + intros _ s' [= <-]. done.
Qed.

Definition ex_homology_by_alias : Obj :=
  match ChannelModel_init plain_DataObject_init (PyStr "HOMOLOGY") [] [] with
  | Ok self => self
  | Raise _ => ∅
  end.

Lemma modelType_populated_iff_alias_witness :
  (stored "modelType" ex_homology_by_alias = [PyStr homologyEstimate] ↔
   ∃ s, PyStr "HOMOLOGY" = PyStr s ∧ lower s = "homology") ∧
  (stored "modelType" ex_homology_by_alias = [PyStr patchClamp] ↔
   ∃ s, PyStr "HOMOLOGY" = PyStr s ∧ lower s = "patch-clamp") ∧
  (stored "modelType" ex_homology_by_alias = [] ↔
   ∀ s, PyStr "HOMOLOGY" = PyStr s →
        lower s ≠ "homology" ∧ lower s ≠ "patch-clamp").
Proof.
  apply (modelType_populated_iff_alias plain_DataObject_init
           (PyStr "HOMOLOGY") [] [] ex_homology_by_alias).
  vm_compute. reflexivity.
Defined.

(** X4: [PatchClampExperiment.__init__] leaves what the base constructor
    attached as it was: every attribute whose name is no condition is the
    base's, with its cardinality, kind and values. *)
Theorem PatchClampExperiment_keeps_base_attributes
    (Experiment_init : bool → dict → result Obj)
    (reference : bool) (kwargs : dict) (self : Obj) :
  NoDup kwargs.*1 →
  PatchClampExperiment_init Experiment_init reference kwargs = Ok self →
  ∃ base,
    Experiment_init reference (forwarded kwargs) = Ok base ∧
    base ⊆ self ∧
    ∀ n, n ∉ conditions → self !! n = base !! n.
Proof.
  intros Hnd Hrun.
  destruct (PatchClampExperiment_init_inv Experiment_init reference kwargs
              self Hnd Hrun) as (base & Hbase & Hfresh & Hlook).
  exists base. split; [done|]. split.
  - apply map_subseteq_spec. intros n p Hp. rewrite Hlook.
    case_decide as Hn; [|done]. by rewrite (Hfresh n Hn) in Hp.
  - intros n Hn. rewrite Hlook. by rewrite decide_False.
Qed.

Definition ex_experiment_with_base : Obj :=
  match PatchClampExperiment_init (declaring_Experiment_init "reference")
          true [("cell", PyStr "ADAL")] with
  | Ok self => self
  | Raise _ => ∅
  end.

Lemma PatchClampExperiment_keeps_base_attributes_witness :
  ∃ base,
    declaring_Experiment_init "reference" true
      (forwarded [("cell", PyStr "ADAL")]) = Ok base ∧
    base ⊆ ex_experiment_with_base ∧
    ∀ n, n ∉ conditions → ex_experiment_with_base !! n = base !! n.
Proof.
  apply (PatchClampExperiment_keeps_base_attributes
           (declaring_Experiment_init "reference") true
           [("cell", PyStr "ADAL")] ex_experiment_with_base).
  - nodup_keys.
  - vm_compute. reflexivity.
Defined.

(** X7: [PatchClampExperiment.__init__] raises exactly what the base
    constructor raises on the forwarded keywords, or [SchemaConflict] when
    the base has already attached a condition name.  Reading the property
    back with [getattr] and setting the supplied values never raises. *)
Theorem PatchClampExperiment_raises_iff
    (Experiment_init : bool → dict → result Obj)
    (reference : bool) (kwargs : dict) (e : exn) :
  NoDup kwargs.*1 →
  PatchClampExperiment_init Experiment_init reference kwargs = Raise e ↔
  Experiment_init reference (forwarded kwargs) = Raise e ∨
  (e = SchemaConflict ∧
   ∃ base c, Experiment_init reference (forwarded kwargs) = Ok base ∧
             c ∈ conditions ∧ is_Some (base !! c)).
Proof.
  intros Hnd. split.
  - intros Hrun.
    destruct (Experiment_init reference (forwarded kwargs))
      as [base|e'] eqn:Hbase.
    + right. destruct (fresh_or_taken conditions base)
        as [Hfresh|(c & Hc & Hs)].
      * destruct (PatchClampExperiment_init_Ok Experiment_init reference
                    kwargs base Hnd Hbase Hfresh) as (self & Hok & _).
        by rewrite Hok in Hrun.
      * rewrite (PatchClampExperiment_init_declare_Raise Experiment_init
                   reference kwargs base SchemaConflict Hnd Hbase) in Hrun
          by by apply (declare_each_conflict conditions base c).
        injection Hrun as <-. split; [done|]. by exists base, c.
    + left.
      rewrite (PatchClampExperiment_init_Raise Experiment_init reference
                 kwargs e' Hnd Hbase) in Hrun.
      by injection Hrun as ->.
  - intros [Hbase|(-> & base & c & Hbase & Hc & Hs)].
    + by apply PatchClampExperiment_init_Raise.
    + apply (PatchClampExperiment_init_declare_Raise _ _ _ base); [done..|].
      by apply (declare_each_conflict conditions base c).
Qed.

Lemma PatchClampExperiment_raises_iff_witness :
  PatchClampExperiment_init plain_Experiment_init false
    [("foo", PyInt 1); ("cell", PyStr "ADAL")] = Raise UnrecognizedArgument ↔
  plain_Experiment_init false
    (forwarded [("foo", PyInt 1); ("cell", PyStr "ADAL")])
  = Raise UnrecognizedArgument ∨
  (UnrecognizedArgument = SchemaConflict ∧
   ∃ base c, plain_Experiment_init false
               (forwarded [("foo", PyInt 1); ("cell", PyStr "ADAL")])
             = Ok base ∧
             c ∈ conditions ∧ is_Some (base !! c)).
Proof.
  apply (PatchClampExperiment_raises_iff plain_Experiment_init false
           [("foo", PyInt 1); ("cell", PyStr "ADAL")] UnrecognizedArgument).
  nodup_keys.
Defined.

(** X8: [HomologyChannelModel] passes [modelType='homology'] itself.  A
    caller who also passes [modelType] gets a [TypeError] and no instance;
    every instance the constructor returns holds the homology sentinel as
    its [modelType] and never the patch-clamp one; and the construction
    does return one whenever the base constructor accepts the keywords and
    has not declared the four names. *)
Theorem HomologyChannelModel_fixes_modelType
    (DataObject_init : list pyval → dict → result Obj) (kwargs : dict) :
  ("modelType" ∈ kwargs.*1 →
   HomologyChannelModel_init DataObject_init kwargs = Raise TypeError) ∧
  (∀ self,
     HomologyChannelModel_init DataObject_init kwargs = Ok self →
     stored "modelType" self = [PyStr homologyEstimate] ∧
     attr_get "modelType" self = Ok (One (Some (PyStr homologyEstimate))) ∧
     PyStr patchClamp ∉ stored "modelType" self) ∧
  (∀ base,
     "modelType" ∉ kwargs.*1 →
     DataObject_init [] kwargs = Ok base →
     (∀ c, c ∈ ChannelModel_names → base !! c = None) →
     ∃ self, HomologyChannelModel_init DataObject_init kwargs = Ok self).
Proof.
  split; [|split].
  - intros Hin. unfold HomologyChannelModel_init, call_with_modelType.
    by rewrite bool_decide_eq_true_2.
  - intros self Hrun. apply specialization_inv in Hrun
      as (_ & parent & Hparent & ->).
    apply ChannelModel_init_str_lookup in Hparent.
    assert (Hget : stored "modelType"
                     (<["homolog" := mkProperty false (Relationship Channel) []]>
                        parent) = [PyStr homologyEstimate] ∧
                   attr_get "modelType"
                     (<["homolog" := mkProperty false (Relationship Channel) []]>
                        parent) = Ok (One (Some (PyStr homologyEstimate)))).
    { apply single_valued_get. by rewrite lookup_insert_ne. }
    destruct Hget as [Hs Hg]. split; [done|]. split; [done|].
    rewrite Hs. intros Hin%list_elem_of_singleton. discriminate Hin.
  - intros base Hkw Hbase Hfresh.
    destruct (ChannelModel_init_str DataObject_init "homology" [] kwargs
                base Hbase Hfresh) as (parent & Hrun & _).
    eexists. unfold HomologyChannelModel_init, call_with_modelType.
    rewrite bool_decide_eq_false_2 by done. by rewrite Hrun.
Qed.

Lemma HomologyChannelModel_fixes_modelType_witness :
  HomologyChannelModel_init plain_DataObject_init
    [("modelType", PyStr "patch-clamp")] = Raise TypeError
  ∧ ∃ self,
      HomologyChannelModel_init plain_DataObject_init [] = Ok self
      ∧ stored "modelType" self = [PyStr homologyEstimate].
Proof.
  split.
  - apply (proj1 (HomologyChannelModel_fixes_modelType
                    plain_DataObject_init
                    [("modelType", PyStr "patch-clamp")])).
    in_list.
  - destruct (HomologyChannelModel_fixes_modelType plain_DataObject_init [])
      as (_ & Hfix & Hok).
    destruct (Hok ∅) as [self Hrun].
    + vm_compute. intros H. inversion H.
    + reflexivity.
    + intros c _. apply lookup_empty.
    + exists self. split; [done|]. by apply Hfix.
Defined.



(** X1: [PatchClampExperiment.__init__] does not depend on the order in
    which the keywords were written.  The conditions are sliced out,
    declared and set in the order of the call, and yet two calls whose
    keywords are the same up to order give the same exception or the same
    instance, as long as the base constructor gives the same outcome on
    the keywords forwarded to it (which are the same list when only
    conditions change place). *)
Theorem PatchClampExperiment_keyword_order
    (Experiment_init : bool → dict → result Obj)
    (reference : bool) (kw1 kw2 : dict) :
  NoDup kw1.*1 → kw1 ≡ₚ kw2 →
  Experiment_init reference (forwarded kw1)
  = Experiment_init reference (forwarded kw2) →
  PatchClampExperiment_init Experiment_init reference kw1
  = PatchClampExperiment_init Experiment_init reference kw2.
Proof.
  intros Hnd1 Hp Hb.
  assert (Hnd2 : NoDup kw2.*1) by by rewrite <-Hp.
  destruct (Experiment_init reference (forwarded kw1)) as [base|e] eqn:Hb1;
    symmetry in Hb.
  - destruct (declare_each conditions base) as [o|e] eqn:Hd.
    + apply declare_each_inv in Hd as [_ Hfresh].
      destruct (PatchClampExperiment_init_Ok Experiment_init reference kw1
                  base Hnd1 Hb1 Hfresh) as (s1 & -> & L1).
      destruct (PatchClampExperiment_init_Ok Experiment_init reference kw2
                  base Hnd2 Hb Hfresh) as (s2 & -> & L2).
      f_equal. apply map_eq. intros n. rewrite L1, L2.
      unfold condition_values. by rewrite (dict_get_perm kw1 kw2).
    + rewrite (PatchClampExperiment_init_declare_Raise Experiment_init
                 reference kw1 base e Hnd1 Hb1 Hd).
      by rewrite (PatchClampExperiment_init_declare_Raise Experiment_init
                    reference kw2 base e Hnd2 Hb Hd).
  - rewrite (PatchClampExperiment_init_Raise Experiment_init reference kw1
               e Hnd1 Hb1).
    by rewrite (PatchClampExperiment_init_Raise Experiment_init reference
                  kw2 e Hnd2 Hb).
Qed.

Lemma PatchClampExperiment_keyword_order_witness :
  PatchClampExperiment_init plain_Experiment_init false
    [("temperature", PyInt 20); ("cell", PyStr "ADAL")]
  = PatchClampExperiment_init plain_Experiment_init false
      [("cell", PyStr "ADAL"); ("temperature", PyInt 20)]
  ∧ PatchClampExperiment_init plain_Experiment_init false
      [("cell", PyStr "ADAL"); ("temperature", PyInt 20)]
    = Ok ex_experiment.
Proof.
  assert (H : PatchClampExperiment_init plain_Experiment_init false
                [("temperature", PyInt 20); ("cell", PyStr "ADAL")]
              = PatchClampExperiment_init plain_Experiment_init false
                  [("cell", PyStr "ADAL"); ("temperature", PyInt 20)]).
  { apply (PatchClampExperiment_keyword_order plain_Experiment_init false
             [("temperature", PyInt 20); ("cell", PyStr "ADAL")]
             [("cell", PyStr "ADAL"); ("temperature", PyInt 20)]).
    - nodup_keys.
    - apply perm_swap.
    - reflexivity. }
  split; [exact H|]. rewrite <-H. exact ex_experiment_built.
Defined.
